(** * rna_draw: the drawing orchestrator ([rna_draw/draw.py])

    A shallow embedding of [draw.py]: the command-line glue, the
    [RNADrawer] class and the figure-sizing step of [RNADrawer.__render].

    The modules [rna_draw.render_rna], [rna_draw.colorer] and
    [rna_draw.parameters], and the libraries [argparse], [scipy] and
    [matplotlib], are collaborators of this file.  They are taken as an
    interface ([Collaborators]); every call that [draw.py] makes on one of
    them is recorded, in program order, in the list of events a computation
    produces, and the value the collaborator returns (or the exception it
    raises) drives the rest of the computation exactly as in the source. *)

From Stdlib Require Import ZArith List String Ascii Bool Lia Floats FinFun
  Sorted.
Import ListNotations.

Set Implicit Arguments.

(** ** Python values used by the glue code *)

(** Exceptions.  [ValueError] is the only exception [draw.py] raises itself
    (in [__get_render_type]); the builtins [min] and [max] raise it on an
    empty sequence.  [SystemExit] is what [argparse] raises on a bad command
    line, and [Raised] stands for any exception raised inside a
    collaborator. *)
Inductive exn : Type :=
| ValueError (msg : string)
| SystemExit (code : Z)
| Raised (origin msg : string).

(** [colorer.RenderType], with the members [draw.py] refers to. *)
Inductive RenderType : Type := RES_TYPE | PAIRED | STRAND.

(** The attributes of [parameters.DrawParameters] read by [__render]. *)
Record DrawParameters : Type := mkDrawParameters {
  NODE_R : float;
  PRIMARY_SPACE : float;
  PAIR_SPACE : float;
  CELL_PADDING : float;
  RENDER_IN_LETTERS : bool
}.

(** A keyword-argument value: [rna_draw] tests [isinstance(v, Path)] on
    each value of its keyword arguments and passes everything else on
    unchanged. *)
Inductive pyobj : Type :=
| PyStr (s : string)
| PyPath (p : string)
| PyInt (z : Z)
| PyNone.

(** [str(v)] for a [Path]. *)
Definition str (v : pyobj) : pyobj :=
  match v with
  | PyPath p => PyStr p
  | _ => v
  end.

Definition isinstance_Path (v : pyobj) : bool :=
  match v with
  | PyPath _ => true
  | _ => false
  end.

(** One [parser.add_argument] call. *)
Record Argument : Type := mkArgument {
  arg_flag : string;
  arg_help : string;
  arg_required : option bool;
  arg_default : option string
}.

Definition ArgumentParser : Type := list Argument.

(** The namespace [parse_args] returns for the parser of [get_parser]:
    [-ss] is required and [-out] has a default, the other attributes are
    [None] when the option is absent. *)
Record Namespace : Type := mkNamespace {
  ns_ss : string;
  ns_seq : option string;
  ns_out : string;
  ns_color_str : option string;
  ns_render_type : option string;
  ns_color_palette : option string;
  ns_default_color : option string;
  ns_data_str : option string;
  ns_data_file : option string;
  ns_data_palette : option string;
  ns_data_vmin : option string;
  ns_data_vmax : option string;
  ns_data_ignore_restype : option string
}.

(** ** Builtins *)

(** [s.lower()] on the ASCII letters.  A character outside ASCII is a
    sequence of bytes above 127 here, which [lower] leaves alone; none of
    them lowers to a letter of the keywords [__get_render_type] compares
    with. *)
Definition lower_ascii (c : ascii) : ascii :=
  let n := nat_of_ascii c in
  if ((65 <=? n) && (n <=? 90))%nat then ascii_of_nat (n + 32) else c.

Fixpoint lower (s : string) : string :=
  match s with
  | EmptyString => EmptyString
  | String c s' => String (lower_ascii c) (lower s')
  end.

(** [" " * n] *)
Fixpoint spaces (n : nat) : string :=
  match n with
  | O => EmptyString
  | S n' => String " "%char (spaces n')
  end.

(** [min(l)] and [max(l)] on floats: the first item, then every later item
    that compares strictly smaller (greater) replaces the current one. *)
Fixpoint min_from (cur : float) (l : list float) : float :=
  match l with
  | [] => cur
  | x :: l' => min_from (if PrimFloat.ltb x cur then x else cur) l'
  end.

Fixpoint max_from (cur : float) (l : list float) : float :=
  match l with
  | [] => cur
  | x :: l' => max_from (if PrimFloat.ltb cur x then x else cur) l'
  end.

Definition py_min (l : list float) : exn + float :=
  match l with
  | [] => inl (ValueError "min() arg is an empty sequence")
  | x :: l' => inr (min_from x l')
  end.

Definition py_max (l : list float) : exn + float :=
  match l with
  | [] => inl (ValueError "max() arg is an empty sequence")
  | x :: l' => inr (max_from x l')
  end.

(** [a != b] on floats. *)
Definition float_ne (a b : float) : bool := negb (PrimFloat.eqb a b).


(** An entry of the [pairs] list built by [__render]: the dict
    [{"from": i, "to": j, "p": 1.0, "color": c}]. *)
Record pair_entry (color : Type) : Type := mkPair {
  pair_from : Z;
  pair_to : Z;
  pair_p : float;
  pair_color : color
}.

(** ** The collaborators of [draw.py] *)

Class Collaborators : Type := {
  (** [rna_draw.colorer]: the [Colorer] object (with whatever state it
      keeps), resolved colors, the [Data] series. *)
  Colorer : Type;
  rgb : Type;
  Data : Type;
  Colorer_init : Colorer;
  Colorer_color_palette : string -> Colorer -> exn + (unit * Colorer);
  Colorer_get_rgb_colors :
    string -> string -> option string -> option Data ->
    option RenderType -> option rgb -> Colorer -> exn + (list rgb * Colorer);
  Data_init :
    option string -> option string -> option string ->
    option string -> option string -> option string -> exn + Data;
  parse_color_code : string -> exn + rgb;
  DEFAULT_COLORS_e : rgb;
  (** [rna_draw.parameters.DrawParameters()] *)
  DrawParameters_init : DrawParameters;
  (** [rna_draw.render_rna]: the renderer object, which owns the layout
      ([xarray_], [yarray_]) and the matplotlib figure and axes. *)
  RNARenderer : Type;
  Figure : Type;
  RNARenderer_init : RNARenderer;
  get_pairmap_from_secstruct : string -> exn + list Z;
  setup_tree :
    string -> float -> float -> float -> RNARenderer -> exn + RNARenderer;
  get_size : RNARenderer -> exn + list float;
  xarray_ : RNARenderer -> list float;
  yarray_ : RNARenderer -> list float;
  fig : RNARenderer -> Figure;
  ax_axis : string -> RNARenderer -> exn + RNARenderer;
  ax_set_xlim : float -> float -> RNARenderer -> exn + RNARenderer;
  ax_set_ylim : float -> float -> RNARenderer -> exn + RNARenderer;
  fig_set_size_inches : float -> float -> RNARenderer -> exn + RNARenderer;
  renderer_draw :
    float -> float -> list rgb -> list (pair_entry rgb) -> string ->
    bool -> RNARenderer -> exn + RNARenderer;
  fig_savefig : string -> RNARenderer -> exn + RNARenderer;
  (** [scipy.optimize.curve_fit], returning [param], and the float power
      [**] *)
  curve_fit :
    (float -> float -> float -> float -> float) -> list Z -> list Z ->
    exn + (float * float * float);
  float_pow : float -> float -> float;
  (** [argparse.ArgumentParser.parse_args] *)
  argparse_parse_args : ArgumentParser -> list pyobj -> exn + Namespace
}.

(** The calls [draw.py] makes on its collaborators, with their arguments. *)
Inductive event `{Collaborators} : Type :=
| EParseArgs (parser : ArgumentParser) (args : list pyobj)
| EDataInit (data_str data_file data_palette data_vmin data_vmax
             data_ignore_restype : option string)
| EParseColorCode (code : string)
| EColorPalette (palette : string)
| EGetRgbColors (seq ss : string) (color_str : option string)
                (data : option Data) (render_type : option RenderType)
                (default_color : option rgb)
| EGetPairmap (ss : string)
| ESetupTree (ss : string) (node_r primary_space pair_space : float)
| EGetSize
| EAxis (arg : string)
| ESetXlim (lo hi : float)
| ESetYlim (lo hi : float)
| ECurveFit (xdata ydata : list Z)
| ESetSizeInches (w h : float)
| EDraw (px py : float) (colors : list rgb) (pairs : list (pair_entry rgb))
        (seq : string) (letters : bool)
| ESavefig (fname : string).

(** ** Computations: state, exceptions and the trace of calls *)

Section Computations.
Context `{Collaborators}.

(** A computation over a state [S] returns a value or raises, leaves a
    state, and produces the events of the calls it made.  An exception
    stops the computation; the state changes and the events before it
    stay. *)
Definition M (S A : Type) : Type := S -> (exn + A) * S * list event.

Definition ret {S A} (a : A) : M S A := fun s => (inr a, s, []).

Definition raise {S A} (e : exn) : M S A := fun s => (inl e, s, []).

Definition bind {S A B} (m : M S A) (k : A -> M S B) : M S B :=
  fun s =>
    match m s with
    | (inl e, s1, t1) => (inl e, s1, t1)
    | (inr a, s1, t1) =>
        match k a s1 with
        | (r, s2, t2) => (r, s2, t1 ++ t2)
        end
    end.

(** A result computed without any call (a builtin). *)
Definition lift {S A} (r : exn + A) : M S A := fun s => (r, s, []).

(** A call on a collaborator: the event, then its result. *)
Definition call {S A} (ev : event) (r : exn + A) : M S A :=
  fun s => (r, s, [ev]).

Definition get {S} : M S S := fun s => (inr s, s, []).

Definition put {S} (s : S) : M S unit := fun _ => (inr tt, s, []).

(** What a caller observes of a computation started in [s]. *)
Definition result {S A} (m : M S A) (s : S) : exn + A := fst (fst (m s)).
Definition final {S A} (m : M S A) (s : S) : S := snd (fst (m s)).
Definition events {S A} (m : M S A) (s : S) : list event := snd (m s).

End Computations.

(** Sequencing of builtins that may raise. *)
Definition ebind {A B} (r : exn + A) (k : A -> exn + B) : exn + B :=
  match r with
  | inl e => inl e
  | inr a => k a
  end.

Notation "x <-? r ;; k" := (ebind r (fun x => k))
  (at level 61, r at next level, right associativity).
Notation "x <- m ;; k" := (bind m (fun x => k))
  (at level 61, m at next level, right associativity).
Notation "m ;; k" := (bind m (fun _ => k))
  (at level 61, right associativity).

(** ** [draw.py] *)

(** [get_parser()]: the thirteen options, in the order they are added.
    The construction of the [ArgumentParser] itself, which takes the
    program name from [sys.argv[0]], is taken to succeed. *)
Definition get_parser : ArgumentParser :=
  [ mkArgument "-ss" "secondary structure in dot bracket notation"
      (Some true) None;
    mkArgument "-seq" "rna sequence" (Some false) None;
    mkArgument "-out" "output png file" (Some false) (Some "secstruct");
    mkArgument "-color_str" "description of coloring, see docs for options"
      (Some false) None;
    mkArgument "-render_type" "scheme to color by: res_type,paired,motif,none"
      (Some false) None;
    mkArgument "-color_palette" "seaborn color palette. Optional"
      (Some false) None;
    mkArgument "-default_color" "the color used when no other color is supplied"
      None None;
    mkArgument "-data_str" "data values by res seperated by ;" (Some false) None;
    mkArgument "-data_file" "path to data to color by" (Some false) None;
    mkArgument "-data_palette" "matplotlib color palette" (Some false) None;
    mkArgument "-data_vmin"
      "min data value everything lower than this will be set to this value"
      (Some false) None;
    mkArgument "-data_vmax"
      "max data value everything greater than this will be set to this value"
      (Some false) None;
    mkArgument "-data_ignore_restype"
      "data values will be ignored for these restypes, e.g. G and U for DMS"
      (Some false) None ]%string.

(** The calibration table of [__render]. *)
Definition rna_identity : list string :=
  ["hairpin"; "t-RNA"; "CO-VID19 5' UTR"; "50S Ribosome"]%string.
Definition rna_area : list Z := [3781; 126207; 1150472; 4286761]%Z.
Definition rna_figsize_variable : list Z := [25; 30; 35; 40]%Z.

(** The process: [sys.argv], which [parse_args()] reads. *)
Record Process : Type := mkProcess { sys_argv : list pyobj }.

Section Draw.
Context `{Collaborators}.

(** [parser.parse_args(args)]; with [args=None] the arguments are
    [sys.argv[1:]]. *)
Definition parse_args_of (parser : ArgumentParser)
    (args : option (list pyobj)) : M Process Namespace :=
  p <- get ;;
  let argv := match args with
              | Some a => a
              | None => tl (sys_argv p)
              end in
  call (EParseArgs parser argv) (argparse_parse_args parser argv).

Definition parse_args : M Process Namespace :=
  let parser := get_parser in
  args <- parse_args_of parser None ;;
  ret args.

(** *** class RNADrawer *)

Record RNADrawer : Type := mkRNADrawer {
  __colorer : Colorer;
  __draw_params : DrawParameters
}.

Definition RNADrawer___init__ : RNADrawer :=
  mkRNADrawer Colorer_init DrawParameters_init.

(** A method call on [self.__colorer].  A call that raises is taken to
    leave the colorer as it was. *)
Definition on_colorer {A} (ev : event)
    (f : Colorer -> exn + (A * Colorer)) : M RNADrawer A :=
  fun self =>
    match f (__colorer self) with
    | inl e => (inl e, self, [ev])
    | inr (a, c) => (inr a, mkRNADrawer c (__draw_params self), [ev])
    end.

Definition __setup (draw_params : option DrawParameters) : M RNADrawer unit :=
  match draw_params with
  | Some dp =>
      self <- get ;;
      put (mkRNADrawer (__colorer self) dp)
  | None => ret tt
  end.

(** The loop of [__render] over [range(len(pairmap))]. *)
Definition render_pairs (pairmap : list Z) : list (pair_entry rgb) :=
  fold_left
    (fun pairs i =>
       let pm_i := nth i pairmap 0%Z in
       if (pm_i >? Z.of_nat i)%Z
       then pairs ++ [mkPair (Z.of_nat i) pm_i 1%float DEFAULT_COLORS_e]
       else pairs)
    (List.seq 0 (List.length pairmap)) [].

(** The fitted function [test(x, a, b, c)]. *)
Definition test (x a b c : float) : float :=
  (a * float_pow (x - b) c)%float.

(** The figure-sizing step of [__render] (the [if] after [curve_fit]): the
    arguments of [r.fig.set_size_inches], or [None] when the guard is
    false and the figure keeps the size it was created with. *)
Definition figure_size (xarray_ yarray_ : list float)
    (param : float * float * float) : exn + option (float * float) :=
  let '(param0, param1, param2) := param in
  min_x <-? py_min xarray_ ;;
  max_y <-? py_max yarray_ ;;
  if float_ne min_x max_y then
    max_x <-? py_max xarray_ ;;
    min_x <-? py_min xarray_ ;;
    max_y <-? py_max yarray_ ;;
    min_y <-? py_min yarray_ ;;
    let area := ((max_x - min_x) * (max_y - min_y))%float in
    inr (Some
           (((max_x - min_x)
             / (param0 * float_pow (area - param1) param2))%float,
            ((max_y - min_y)
             / (param0 * float_pow (area - param1) param2))%float))
  else inr None.

Definition __render {S} (seq ss : string) (colors : list rgb)
    (filename : string) (params : DrawParameters) : M S Figure :=
  let r := RNARenderer_init in
  pairmap <- call (EGetPairmap ss) (get_pairmap_from_secstruct ss) ;;
  let pairs := render_pairs pairmap in
  r <- call (ESetupTree ss (NODE_R params) (PRIMARY_SPACE params)
               (PAIR_SPACE params))
         (setup_tree ss (NODE_R params) (PRIMARY_SPACE params)
            (PAIR_SPACE params) r) ;;
  size <- call EGetSize (get_size r) ;;
  max_size <- lift (py_max size) ;;
  let cell_size := (max_size + CELL_PADDING params * 2)%float in
  r <- call (EAxis "off") (ax_axis "off" r) ;;
  xlo <- lift (py_min (xarray_ r)) ;;
  xhi <- lift (py_max (xarray_ r)) ;;
  r <- call (ESetXlim (xlo + 40 - 15) (xhi + 40 + 15))
         (ax_set_xlim (xlo + 40 - 15) (xhi + 40 + 15) r) ;;
  ylo <- lift (py_min (yarray_ r)) ;;
  yhi <- lift (py_max (yarray_ r)) ;;
  r <- call (ESetYlim (ylo + 40 - 15) (yhi + 40 + 15))
         (ax_set_ylim (ylo + 40 - 15) (yhi + 40 + 15) r) ;;
  let x := rna_area in
  let y := rna_figsize_variable in
  param <- call (ECurveFit x y) (curve_fit test x y) ;;
  size_inches <- lift (figure_size (xarray_ r) (yarray_ r) param) ;;
  r <- match size_inches with
       | Some (w, h) => call (ESetSizeInches w h) (fig_set_size_inches w h r)
       | None => ret r
       end ;;
  r <- call (EDraw (CELL_PADDING params) (CELL_PADDING params) colors pairs
               seq (RENDER_IN_LETTERS params))
         (renderer_draw (CELL_PADDING params) (CELL_PADDING params) colors
            pairs seq (RENDER_IN_LETTERS params) r) ;;
  r <- call (ESavefig (filename ++ ".png")%string)
         (fig_savefig (filename ++ ".png")%string r) ;;
  ret (fig r).

Definition draw (ss : string) (seq : option string) (filename : string)
    (color_str : option string) (render_type : option RenderType)
    (default_color : option rgb) (color_palette : option string)
    (data : option Data) (draw_params : option DrawParameters)
    : M RNADrawer Figure :=
  __setup draw_params ;;
  let seq := match seq with
             | None => spaces (String.length ss)
             | Some s => s
             end in
  match color_palette with
  | Some cp => on_colorer (EColorPalette cp) (Colorer_color_palette cp)
  | None => ret tt
  end ;;
  final_color_rbgs <-
    on_colorer (EGetRgbColors seq ss color_str data render_type default_color)
      (Colorer_get_rgb_colors seq ss color_str data render_type
         default_color) ;;
  self <- get ;;
  __render seq ss final_color_rbgs filename (__draw_params self).


(** *** Module-level functions *)

Definition is_not_None {A} (o : option A) : bool :=
  match o with
  | Some _ => true
  | None => false
  end.

Definition __get_data_from_args {S} (args : Namespace) : M S (option Data) :=
  if is_not_None (ns_data_str args) || is_not_None (ns_data_file args) then
    d <- call (EDataInit (ns_data_str args) (ns_data_file args)
                 (ns_data_palette args) (ns_data_vmin args)
                 (ns_data_vmax args) (ns_data_ignore_restype args))
           (Data_init (ns_data_str args) (ns_data_file args)
              (ns_data_palette args) (ns_data_vmin args)
              (ns_data_vmax args) (ns_data_ignore_restype args)) ;;
    ret (Some d)
  else ret None.

Definition __get_render_type (render_type_name : option string)
    : exn + option RenderType :=
  match render_type_name with
  | None => inr None
  | Some render_type_name =>
      let render_type_name := lower render_type_name in
      if (render_type_name =? "res_type")%string then inr (Some RES_TYPE)
      else if (render_type_name =? "paired")%string then inr (Some PAIRED)
      else if (render_type_name =? "strand")%string then inr (Some STRAND)
      else if (render_type_name =? "none")%string then inr None
      else inl (ValueError ("unknown render type: " ++ render_type_name))
  end.

(** A method call on a local object [obj]: the object is dropped when the
    caller returns. *)
Definition on_local {S O A} (obj : O) (m : M O A) : M S A :=
  fun s =>
    match m obj with
    | (r, _, t) => (r, s, t)
    end.

Definition __rna_draw_from_args {S} (args : Namespace) : M S Figure :=
  data <- __get_data_from_args args ;;
  render_type <- lift (__get_render_type (ns_render_type args)) ;;
  default_color <-
    match ns_default_color args with
    | Some code =>
        c <- call (EParseColorCode code) (parse_color_code code) ;;
        ret (Some c)
    | None => ret None
    end ;;
  let rd := RNADrawer___init__ in
  on_local rd
    (draw (ns_ss args) (ns_seq args) (ns_out args) (ns_color_str args)
       render_type default_color (ns_color_palette args) data None).

(** The loop of [rna_draw] that builds the argument list. *)
Definition rna_draw_args (kwargs : list (string * pyobj)) : list pyobj :=
  fold_left
    (fun args kv =>
       let '(k, v) := kv in
       let args := args ++ [PyStr ("-" ++ k)] in
       let v := if isinstance_Path v then str v else v in
       args ++ [v])
    kwargs [].

Definition rna_draw (kwargs : list (string * pyobj)) : M Process Figure :=
  let parser := get_parser in
  let args := rna_draw_args kwargs in
  args <- parse_args_of parser (Some args) ;;
  __rna_draw_from_args args.

Definition main : M Process Figure :=
  args <- parse_args ;;
  __rna_draw_from_args args.

End Draw.

(** ** A stand-in for the collaborators

    Used to run [draw.py] on concrete inputs: a dot-bracket parser that
    follows the specification, and a colorer, a layout and a figure that
    accept every request. *)

Module StandIn.

Inductive channel : Type := Round | Square | Curly | Angle.

Definition channel_eqb (a b : channel) : bool :=
  match a, b with
  | Round, Round | Square, Square | Curly, Curly | Angle, Angle => true
  | _, _ => false
  end.

Definition open_symbol (c : ascii) : option channel :=
  if (c =? "(")%char then Some Round
  else if (c =? "[")%char then Some Square
  else if (c =? "{")%char then Some Curly
  else if (c =? "<")%char then Some Angle
  else None.

Definition close_symbol (c : ascii) : option channel :=
  if (c =? ")")%char then Some Round
  else if (c =? "]")%char then Some Square
  else if (c =? "}")%char then Some Curly
  else if (c =? ">")%char then Some Angle
  else None.

(** The stacks of all channels, as one list of open positions, innermost
    first: popping a channel takes its most recent open position. *)
Fixpoint pop (ch : channel) (opens : list (channel * nat))
    : option (nat * list (channel * nat)) :=
  match opens with
  | [] => None
  | (ch', j) :: rest =>
      if channel_eqb ch ch' then Some (j, rest)
      else
        match pop ch rest with
        | Some (k, rest') => Some (k, (ch', j) :: rest')
        | None => None
        end
  end.

Fixpoint scan (s : string) (i : nat) (opens : list (channel * nat))
    (found : list (nat * nat)) : exn + list (nat * nat) :=
  match s with
  | EmptyString =>
      match opens with
      | [] => inr found
      | _ :: _ => inl (Raised "UnbalancedStructureError" "unmatched open")
      end
  | String c s' =>
      match open_symbol c, close_symbol c with
      | Some ch, _ => scan s' (S i) ((ch, i) :: opens) found
      | None, Some ch =>
          match pop ch opens with
          | Some (j, rest) => scan s' (S i) rest ((j, i) :: found)
          | None => inl (Raised "UnbalancedStructureError" "unmatched close")
          end
      | None, None =>
          if (c =? ".")%char then scan s' (S i) opens found
          else inl (Raised "StructureSyntaxError" "unrecognized character")
      end
  end.

Fixpoint partner (k : nat) (found : list (nat * nat)) : Z :=
  match found with
  | [] => (-1)%Z
  | (j, i) :: rest =>
      if (k =? j)%nat then Z.of_nat i
      else if (k =? i)%nat then Z.of_nat j
      else partner k rest
  end.

(** Modelled from the spec: [render_rna.get_pairmap_from_secstruct] is
    not among the sources; this is the PairMapParser of the
    specification (one stack per bracket channel, a pair recorded at each
    close symbol, the sentinel -1 for an unpaired residue, failure on an
    unrecognized character or an unbalanced channel). *)
Definition parse (dot_bracket : string) : exn + list Z :=
  found <-? scan dot_bracket 0 [] [] ;;
  inr (map (fun k => partner k found)
         (List.seq 0 (String.length dot_bracket))).

(** A layout on the line y = 0, residues [primary_space] apart from
    x = 0. *)
Fixpoint line (n : nat) (x step : float) : list float :=
  match n with
  | O => []
  | S n' => x :: line n' (x + step)%float step
  end.

Definition collaborators : Collaborators := {|
  Colorer := option string;
  rgb := Z * Z * Z;
  Data := string;
  Colorer_init := None;
  Colorer_color_palette := fun cp _ => inr (tt, Some cp);
  Colorer_get_rgb_colors := fun seq ss _ _ _ default_color c =>
    inr (map (fun _ => match default_color with
                       | Some d => d
                       | None => (0, 0, 0)%Z
                       end)
           (list_ascii_of_string ss), c);
  Data_init := fun data_str _ _ _ _ _ =>
    inr (match data_str with Some d => d | None => EmptyString end);
  parse_color_code := fun _ => inr (0, 0, 0)%Z;
  DEFAULT_COLORS_e := (0, 0, 0)%Z;
  DrawParameters_init := mkDrawParameters 10 20 23 40 true;
  RNARenderer := list float * list float;
  Figure := list float * list float;
  RNARenderer_init := ([], []);
  get_pairmap_from_secstruct := parse;
  setup_tree := fun ss node_r primary_space pair_space _ =>
    inr (line (String.length ss) 0 primary_space,
         line (String.length ss) 0 0);
  get_size := fun r => inr [max_from 0 (fst r); max_from 0 (snd r)];
  xarray_ := fst;
  yarray_ := snd;
  fig := fun r => r;
  ax_axis := fun _ r => inr r;
  ax_set_xlim := fun _ _ r => inr r;
  ax_set_ylim := fun _ _ r => inr r;
  fig_set_size_inches := fun _ _ r => inr r;
  renderer_draw := fun _ _ _ _ _ _ r => inr r;
  fig_savefig := fun _ r => inr r;
  (** placeholders: on the line y = 0 from x = 0 [__render] does not use
      the fitted coefficients *)
  curve_fit := fun _ _ _ => inr (1, 0, 1)%float;
  float_pow := fun x _ => x;
  argparse_parse_args := fun _ _ => inl (SystemExit 2)
|}.

(** A request for the structure "((..))" that sets the four options of a
    data series and no data series. *)
Definition request : Namespace :=
  mkNamespace "((..))" None "secstruct" None None None None None None
    (Some "viridis"%string) (Some "0"%string) (Some "1"%string)
    (Some "GU"%string).

End StandIn.

(** ** Observations used in the statements *)

Section Observations.
Context `{Collaborators}.

(** The colorer [draw] hands to [get_rgb_colors]: [self.__colorer] after
    [color_palette], when a palette is given. *)
Definition colorer_after_palette (color_palette : option string)
    (c : Colorer) : exn + Colorer :=
  match color_palette with
  | None => inr c
  | Some cp =>
      match Colorer_color_palette cp c with
      | inl e => inl e
      | inr (_, c') => inr c'
      end
  end.

(** The sequence argument of a call that takes one. *)
Definition event_seq (ev : event) : option string :=
  match ev with
  | EGetRgbColors seq _ _ _ _ _ => Some seq
  | EDraw _ _ _ _ seq _ => Some seq
  | _ => None
  end.

Definition is_savefig (ev : event) : bool :=
  match ev with
  | ESavefig _ => true
  | _ => false
  end.

Definition is_curve_fit (ev : event) : bool :=
  match ev with
  | ECurveFit _ _ => true
  | _ => false
  end.

(** The calls on the renderer and its figure. *)
Definition is_drawing (ev : event) : bool :=
  match ev with
  | EParseArgs _ _ | EDataInit _ _ _ _ _ _ | EParseColorCode _
  | EColorPalette _ | EGetRgbColors _ _ _ _ _ _ | ECurveFit _ _ => false
  | _ => true
  end.

(** The entry [__render] appends for position [i] of [pairmap]. *)
Definition entry_of (pairmap : list Z) (i : nat) : pair_entry rgb :=
  mkPair (Z.of_nat i) (nth i pairmap 0%Z) 1%float DEFAULT_COLORS_e.

(** The calls of [color_palette] and of the renderer's [draw]. *)
Definition is_color_palette (ev : event) : bool :=
  match ev with
  | EColorPalette _ => true
  | _ => false
  end.

Definition is_renderer_draw (ev : event) : bool :=
  match ev with
  | EDraw _ _ _ _ _ _ => true
  | _ => false
  end.

(** The drawing parameters a call on the renderer was given are those of
    [params]. *)
Definition given_params (params : DrawParameters) (ev : event) : Prop :=
  match ev with
  | ESetupTree _ node_r primary_space pair_space =>
      node_r = NODE_R params /\ primary_space = PRIMARY_SPACE params
      /\ pair_space = PAIR_SPACE params
  | EDraw px py _ _ _ letters =>
      px = CELL_PADDING params /\ py = CELL_PADDING params
      /\ letters = RENDER_IN_LETTERS params
  | _ => True
  end.

(** The calls that only examine the arguments of a request. *)
Definition is_argument_check (ev : event) : bool :=
  match ev with
  | EDataInit _ _ _ _ _ _ | EParseColorCode _ => true
  | _ => false
  end.

(** What a caller can observe of a call: what it returns or raises, and
    the calls it made. *)
Definition observe {S A} (m : M S A) (s : S) : (exn + A) * list event :=
  (result m s, events m s).

End Observations.

(** The invariants of a pairing relation (specification, data model): an
    entry is the sentinel -1 or the index of another residue, whose entry
    points back. *)
Definition pairing_relation (pairmap : list Z) : Prop :=
  forall i, (0 <= i < List.length pairmap)%nat ->
    nth i pairmap (-1)%Z = (-1)%Z \/
    ((0 <= nth i pairmap (-1) < Z.of_nat (List.length pairmap))%Z /\
     nth i pairmap (-1)%Z <> Z.of_nat i /\
     nth (Z.to_nat (nth i pairmap (-1)%Z)) pairmap (-1)%Z = Z.of_nat i).

(** [i] and [j] form a base pair of [pairmap]. *)
Definition base_pair (pairmap : list Z) (i j : Z) : Prop :=
  (0 <= i < Z.of_nat (List.length pairmap))%Z /\
  (0 <= j < Z.of_nat (List.length pairmap))%Z /\
  nth (Z.to_nat i) pairmap (-1)%Z = j /\
  nth (Z.to_nat j) pairmap (-1)%Z = i.

(** The positions of [pairmap] that have a partner. *)
Definition paired_positions (pairmap : list Z) : list nat :=
  filter (fun i => negb (nth i pairmap (-1) =? -1)%Z)
    (List.seq 0 (List.length pairmap)).

(** [args] with the attribute [render_type] replaced. *)
Definition with_render_type (args : Namespace) (render_type : option string)
    : Namespace :=
  mkNamespace (ns_ss args) (ns_seq args) (ns_out args) (ns_color_str args)
    render_type (ns_color_palette args) (ns_default_color args)
    (ns_data_str args) (ns_data_file args) (ns_data_palette args)
    (ns_data_vmin args) (ns_data_vmax args) (ns_data_ignore_restype args).

(** [args] without the options that only qualify a data series. *)
Definition without_data_options (args : Namespace) : Namespace :=
  mkNamespace (ns_ss args) (ns_seq args) (ns_out args) (ns_color_str args)
    (ns_render_type args) (ns_color_palette args) (ns_default_color args)
    (ns_data_str args) (ns_data_file args) None None None None.

(** The argument list of the command line that corresponds to a call of
    [rna_draw], as the specification words it: each key prefixed
    with "-", followed by its value, a [Path] converted to a string. *)
Definition cli_args_of_kwargs (kwargs : list (string * pyobj)) : list pyobj :=
  flat_map
    (fun kv =>
       [PyStr ("-" ++ fst kv);
        match snd kv with
        | PyPath p => PyStr p
        | v => v
        end])
    kwargs.

(** ** Running computations *)

Section Runs.
Context `{Collaborators}.

(** [runs m s Q]: the outcome of [m] started in [s] satisfies [Q]. *)
Definition runs {S A} (m : M S A) (s : S)
    (Q : exn + A -> S -> list event -> Prop) : Prop :=
  Q (result m s) (final m s) (events m s).

(** What remains to show after the first part of a [bind] has run. *)
Definition after {S A B} (r : exn + A) (s1 : S) (t1 : list event)
    (k : A -> M S B) (Q : exn + B -> S -> list event -> Prop) : Prop :=
  match r with
  | inl e => Q (inl e) s1 t1
  | inr a => runs (k a) s1 (fun r2 s2 t2 => Q r2 s2 (t1 ++ t2))
  end.

Lemma runs_bind {S A B} (m : M S A) (k : A -> M S B) s Q :
  runs m s (fun r s1 t1 => after r s1 t1 k Q) -> runs (bind m k) s Q.
Proof.
  unfold after, runs, result, final, events, bind.
  destruct (m s) as [[[e|a] s1] t1]; cbn; [tauto|].
  unfold runs, result, final, events.
  destruct (k a s1) as [[r2 s2] t2]; cbn; tauto.
Qed.

Lemma runs_call {S A} ev (r : exn + A) (s : S) Q :
  Q r s [ev] -> runs (call ev r) s Q.
Proof. exact (fun q => q). Qed.

Lemma runs_lift {S A} (r : exn + A) (s : S) Q :
  Q r s [] -> runs (lift r) s Q.
Proof. exact (fun q => q). Qed.

Lemma runs_ret {S A} (a : A) (s : S) Q :
  Q (inr a) s [] -> runs (ret a) s Q.
Proof. exact (fun q => q). Qed.

Lemma runs_get {S} (s : S) Q : Q (inr s) s [] -> runs get s Q.
Proof. exact (fun q => q). Qed.

Lemma runs_put {S} (s s' : S) Q : Q (inr tt) s' [] -> runs (put s') s Q.
Proof. exact (fun q => q). Qed.

Lemma runs_on_colorer {A} ev (f : Colorer -> exn + (A * Colorer)) self Q :
  match f (__colorer self) with
  | inl e => Q (inl e) self [ev]
  | inr ac =>
      Q (inr (fst ac)) (mkRNADrawer (snd ac) (__draw_params self)) [ev]
  end ->
  runs (on_colorer ev f) self Q.
Proof.
  unfold runs, result, final, events, on_colorer.
  destruct (f (__colorer self)) as [e|[a c]]; cbn; auto.
Qed.

Lemma runs_on_local {S O A} (obj : O) (m : M O A) (s : S) Q :
  runs m obj (fun r _ t => Q r s t) -> runs (on_local obj m) s Q.
Proof.
  unfold runs, result, final, events, on_local.
  destruct (m obj) as [[r o] t]; cbn; auto.
Qed.

End Runs.

(** States a goal about the outcome of [m] started in [s] with [runs]. *)
Ltac outcome_of m s :=
  cbv zeta;
  pattern (result m s), (final m s), (events m s);
  lazymatch goal with
  | |- ?Q _ _ _ => change (runs m s Q)
  end.

(** Runs the computation of a [runs] goal call by call, with one goal for
    each way it can end. *)
Ltac run_step :=
  lazymatch goal with
  | |- runs (bind _ _) _ _ => apply runs_bind
  | |- runs (call _ _) _ _ => apply runs_call; cbv beta
  | |- runs (lift _) _ _ => apply runs_lift; cbv beta
  | |- runs (ret _) _ _ => apply runs_ret; cbv beta
  | |- runs get _ _ => apply runs_get; cbv beta
  | |- runs (put _) _ _ => apply runs_put; cbv beta
  | |- runs (on_colorer _ _) _ _ => apply runs_on_colorer
  | |- runs (on_local _ _) _ _ => apply runs_on_local
  | |- runs (match ?x with _ => _ end) _ _ => destruct x eqn:?
  | |- runs (let _ := _ in _) _ _ => cbv zeta
  | |- runs (draw _ _ _ _ _ _ _ _ _) _ _ => unfold draw, __setup
  | |- runs (__render _ _ _ _ _) _ _ => unfold __render
  | |- runs (__rna_draw_from_args _) _ _ => unfold __rna_draw_from_args
  | |- runs (__get_data_from_args _) _ _ => unfold __get_data_from_args
  | |- runs (rna_draw _) _ _ => unfold rna_draw
  | |- runs main _ _ => unfold main
  | |- runs parse_args _ _ => unfold parse_args
  | |- runs (parse_args_of _ _) _ _ => unfold parse_args_of
  | |- after ?r _ _ _ _ =>
      unfold after;
      lazymatch r with
      | inr _ => cbv beta iota
      | inl _ => cbv beta iota
      | _ => destruct r eqn:?
      end
  | |- match ?x with inl _ => _ | inr _ => _ end => destruct x eqn:?
  end.

Ltac run :=
  repeat run_step; cbv beta;
  cbn [app fst snd __colorer __draw_params] in *; subst.

(** Uses the recorded outcomes of the calls in the hypotheses. *)
Ltac use_outcomes :=
  repeat match goal with
         | p : (_ * _)%type |- _ => destruct p; cbn [fst snd] in *
         end;
  repeat match goal with
         | E : ?x = _, G : context [?x] |- _ =>
             lazymatch type of G with
             | x = _ => fail
             | _ => rewrite E in G; cbn [fst snd] in G
             end
         end.

(** Identifies the outcomes recorded twice for one call. *)
Ltac agree :=
  repeat match goal with
         | E : inl _ = inr _ |- _ => discriminate E
         | E : inr _ = inl _ |- _ => discriminate E
         | E : inr _ = inr _ |- _ =>
             first [injection E as E; try subst | clear E]
         | E : inl _ = inl _ |- _ =>
             first [injection E as E; try subst | clear E]
         | E1 : ?x = _, E2 : ?x = _ |- _ => rewrite E1 in E2
         end.

(** Runs [__rna_draw_from_args] up to the call of [draw]. *)
Ltac run_arguments :=
  repeat lazymatch goal with
         | |- runs (on_local _ _) _ _ => fail
         | _ => run_step
         end;
  cbv beta; cbn [app] in *.

(** ** RNADrawer.draw *)

Section DrawFacts.
Context `{Collaborators}.

Lemma length_spaces n : String.length (spaces n) = n.
Proof. induction n as [|n IH]; cbn; congruence. Qed.

(** Every call of [draw] that takes a sequence receives the sequence
    [draw] was given, or the spaces that replace [None]. *)
Lemma draw_events_seq ss seq filename color_str render_type default_color
    color_palette data draw_params self :
  Forall
    (fun ev =>
       forall s, event_seq ev = Some s ->
         s = match seq with
             | None => spaces (String.length ss)
             | Some s0 => s0
             end)
    (events (draw ss seq filename color_str render_type default_color
               color_palette data draw_params) self).
Proof.
  outcome_of
    (draw ss seq filename color_str render_type default_color
       color_palette data draw_params) self.
  run; repeat (constructor; try (cbn; intros; congruence)).
Qed.

(** C9: a call of [draw] with [seq=None] is the call with [seq] a string
    of as many spaces as [ss] has characters, so every call that receives
    a sequence (color resolution, the renderer's [draw]) receives one of
    the length of the structure. *)
Theorem draw_seq_None_is_spaces ss filename color_str render_type
    default_color color_palette data draw_params self :
  draw ss None filename color_str render_type default_color color_palette
    data draw_params self
  = draw ss (Some (spaces (String.length ss))) filename color_str
      render_type default_color color_palette data draw_params self
  /\ Forall
       (fun ev =>
          forall s, event_seq ev = Some s ->
            String.length s = String.length ss)
       (events (draw ss None filename color_str render_type default_color
                  color_palette data draw_params) self).
Proof.
  split; [reflexivity|].
  eapply Forall_impl; [|apply draw_events_seq].
  cbn; intros ev Hev s Hs.
  rewrite (Hev s Hs). apply length_spaces.
Qed.

(** C2 (as amended): a supplied [draw_params] is stored in the instance,
    whether or not the call succeeds, and stays in effect: a call with
    [draw_params=None] is the call that supplies the stored parameters.
    With [draw_params] supplied, the stored parameters have no influence:
    the call depends on the instance through its colorer only. *)
Theorem draw_params_stored ss seq filename color_str render_type
    default_color color_palette data :
  (forall self,
      draw ss seq filename color_str render_type default_color
        color_palette data None self
      = draw ss seq filename color_str render_type default_color
          color_palette data (Some (__draw_params self)) self)
  /\ (forall dp self,
        __draw_params
          (final (draw ss seq filename color_str render_type default_color
                    color_palette data (Some dp)) self) = dp)
  /\ (forall dp c dp1 dp2,
        draw ss seq filename color_str render_type default_color
          color_palette data (Some dp) (mkRNADrawer c dp1)
        = draw ss seq filename color_str render_type default_color
            color_palette data (Some dp) (mkRNADrawer c dp2)).
Proof.
  split; [|split].
  - intros [c dp]. reflexivity.
  - intros dp self.
    outcome_of
      (draw ss seq filename color_str render_type default_color
         color_palette data (Some dp)) self.
    run; reflexivity.
  - intros dp c dp1 dp2. reflexivity.
Qed.

(** C3 (as amended): [draw] does not compare the length of a supplied
    sequence with the length of the structure.  The sequence reaches
    color resolution, and every later call that takes a sequence,
    unchanged; and whenever color resolution and the parsing of the
    structure succeed, layout is invoked, whatever the two lengths. *)
Theorem draw_forwards_seq ss seq filename color_str render_type
    default_color color_palette data draw_params self c0 colors pairmap :
  colorer_after_palette color_palette (__colorer self) = inr c0 ->
  Colorer_get_rgb_colors seq ss color_str data render_type default_color c0
    = inr colors ->
  get_pairmap_from_secstruct ss = inr pairmap ->
  let evs :=
    events (draw ss (Some seq) filename color_str render_type default_color
              color_palette data draw_params) self in
  let params :=
    match draw_params with
    | Some dp => dp
    | None => __draw_params self
    end in
  Forall (fun ev => forall s, event_seq ev = Some s -> s = seq) evs
  /\ In (EGetRgbColors seq ss color_str data render_type default_color) evs
  /\ In (ESetupTree ss (NODE_R params) (PRIMARY_SPACE params)
           (PAIR_SPACE params)) evs.
Proof.
  intros Hpal Hcol Hpm evs params.
  split; [apply (draw_events_seq ss (Some seq))|].
  subst evs params. unfold colorer_after_palette in Hpal.
  outcome_of
    (draw ss (Some seq) filename color_str render_type default_color
       color_palette data draw_params) self.
  run; use_outcomes; try congruence;
    repeat match goal with
           | E : inr _ = inr _ |- _ => injection E as E; subst
           end;
    use_outcomes; try congruence;
    (split; cbn;
     [ repeat (first [left; reflexivity | right])
     | repeat (first [left; reflexivity | right]) ]).
Qed.

(** C7 (as amended): the calibration table is the same literal data on
    every call, and the coefficients are not kept: every call of [draw]
    that gets as far as sizing the figure fits them anew, with one
    [curve_fit] on that table, and sizes the figure with the
    coefficients this fit returned.  A call that makes no fit has
    failed. *)
Theorem curve_fit_on_every_draw ss seq filename color_str render_type
    default_color color_palette data draw_params self :
  let run :=
    draw ss seq filename color_str render_type default_color color_palette
      data draw_params in
  (filter is_curve_fit (events run self)
     = [ECurveFit rna_area rna_figsize_variable]
   \/ (filter is_curve_fit (events run self) = []
       /\ exists e, result run self = inl e))
  /\ (forall w h, In (ESetSizeInches w h) (events run self) ->
        exists param xs ys,
          curve_fit test rna_area rna_figsize_variable = inr param
          /\ figure_size xs ys param = inr (Some (w, h))).
Proof.
  outcome_of
    (draw ss seq filename color_str render_type default_color
       color_palette data draw_params) self.
  run;
    (split;
     [ first [ left; reflexivity | right; split; [reflexivity|eauto] ]
     | intros w h Hin; cbn in Hin;
       repeat (destruct Hin as [Hin|Hin]; try discriminate Hin);
       try contradiction;
       injection Hin as <- <-; eauto ]).
Qed.

(** C8: a failure of color resolution, of the parsing of the structure
    or of layout is the outcome of [draw] (the exception is raised to the
    caller, no figure is returned) and [savefig] is not called; when
    [savefig] is called it is the last call of [draw], on
    [filename + ".png"], and color resolution, parsing and layout have
    all succeeded. *)
Theorem draw_failure_writes_no_image ss seq filename color_str render_type
    default_color color_palette data draw_params self :
  let run :=
    draw ss seq filename color_str render_type default_color color_palette
      data draw_params in
  let seq' :=
    match seq with
    | None => spaces (String.length ss)
    | Some s => s
    end in
  let params :=
    match draw_params with
    | Some dp => dp
    | None => __draw_params self
    end in
  let resolve :=
    Colorer_get_rgb_colors seq' ss color_str data render_type
      default_color in
  let layout :=
    setup_tree ss (NODE_R params) (PRIMARY_SPACE params) (PAIR_SPACE params)
      RNARenderer_init in
  let no_image :=
    Forall (fun ev => is_savefig ev = false) (events run self) in
  (forall c0 e,
      colorer_after_palette color_palette (__colorer self) = inr c0 ->
      resolve c0 = inl e ->
      result run self = inl e /\ no_image)
  /\ (forall c0 colors e,
        colorer_after_palette color_palette (__colorer self) = inr c0 ->
        resolve c0 = inr colors ->
        get_pairmap_from_secstruct ss = inl e ->
        result run self = inl e /\ no_image)
  /\ (forall c0 colors pairmap e,
        colorer_after_palette color_palette (__colorer self) = inr c0 ->
        resolve c0 = inr colors ->
        get_pairmap_from_secstruct ss = inr pairmap ->
        layout = inl e ->
        result run self = inl e /\ no_image)
  /\ (forall fname,
        In (ESavefig fname) (events run self) ->
        last (events run self) EGetSize = ESavefig (filename ++ ".png")
        /\ Forall (fun ev => is_savefig ev = false)
             (removelast (events run self))
        /\ exists c0 colors pairmap r,
             colorer_after_palette color_palette (__colorer self) = inr c0
             /\ resolve c0 = inr colors
             /\ get_pairmap_from_secstruct ss = inr pairmap
             /\ layout = inr r).
Proof.
  unfold colorer_after_palette.
  outcome_of
    (draw ss seq filename color_str render_type default_color
       color_palette data draw_params) self.
  run; (split; [|split; [|split]]); intros; use_outcomes;
    try congruence;
    repeat match goal with
           | E : inr _ = inr _ |- _ => injection E as E; subst
           end;
    use_outcomes; try congruence;
    repeat match goal with
           | E : In _ _ |- _ => cbn in E
           | E : _ \/ _ |- _ => destruct E as [E|E]; try discriminate E
           | E : False |- _ => destruct E
           end.
  all: try (split; [congruence | repeat constructor]).
  all: split; [reflexivity|split; [cbn; repeat constructor|]].
  all: repeat match goal with
              | E : ?x = _ |- context [?x] => rewrite E
              end.
  all: eauto 10.
Qed.

End DrawFacts.

(** ** The figure-sizing step *)

Section SizeFacts.
Context `{Collaborators}.

(** Zero divided by any float is a zero or not a number, never a
    positive number. *)
Lemma zero_quotient_not_positive (d : float) :
  PrimFloat.ltb 0 (0 / d) = false.
Proof.
  rewrite ltb_spec, div_spec.
  change (Prim2SF 0) with (S754_zero false).
  destruct (Prim2SF d) as [s|s| |s m e]; try destruct s; reflexivity.
Qed.

(** On a layout with points, the figure-sizing step is decided by
    [min(xarray_) != max(yarray_)]; when that holds, width and height
    are the extents of the bounding box over the same denominator
    [param0 * (area - param1) ** param2]. *)
Lemma figure_size_formula xs ys min_x max_x min_y max_y param0 param1 param2 :
  py_min xs = inr min_x -> py_max xs = inr max_x ->
  py_min ys = inr min_y -> py_max ys = inr max_y ->
  figure_size xs ys (param0, param1, param2)
  = if float_ne min_x max_y then
      let area := ((max_x - min_x) * (max_y - min_y))%float in
      inr (Some
             (((max_x - min_x)
               / (param0 * float_pow (area - param1) param2))%float,
              ((max_y - min_y)
               / (param0 * float_pow (area - param1) param2))%float))
    else inr None.
Proof.
  intros Hx1 Hx2 Hy1 Hy2. unfold figure_size, ebind.
  rewrite Hx1, Hy2. destruct (float_ne min_x max_y); [|reflexivity].
  now rewrite Hx2, Hy1.
Qed.

(** C1: on the layout with x-coordinates 5 and 100 and both
    y-coordinates 0 (zero height, area 0) the guard of the sizing step
    compares [min(xarray_) = 5] with [max(yarray_) = 0], so the rescale
    is not skipped: the power law is evaluated at area 0, on the base
    [0 - param1], and the height handed to [set_size_inches] is
    [0 / ...], which is not positive whatever the coefficients. *)
Theorem figure_size_zero_height_rescaled (param0 param1 param2 : float) :
  let w := (95 / (param0 * float_pow (0 - param1) param2))%float in
  let h := (0 / (param0 * float_pow (0 - param1) param2))%float in
  py_min [0; 0]%float = py_max [0; 0]%float
  /\ figure_size [5; 100]%float [0; 0]%float (param0, param1, param2)
     = inr (Some (w, h))
  /\ PrimFloat.ltb 0 h = false.
Proof.
  split; [reflexivity|]. split; [reflexivity|].
  apply zero_quotient_not_positive.
Qed.

(** C4: on the layout with x-coordinates 0 and 10 and y-coordinates -5
    and 0 (height 5, area 50) the guard of the sizing step compares
    [min(xarray_) = 0] with [max(yarray_) = 0], so no figure dimension is
    computed: the figure keeps the size it was created with. *)
Theorem figure_size_skipped_with_nonzero_height (param : float * float * float) :
  py_min [-5; 0]%float = inr (-5)%float
  /\ py_max [-5; 0]%float = inr 0%float
  /\ figure_size [0; 10]%float [-5; 0]%float param = inr None.
Proof.
  destruct param as [[a b] c]. repeat split.
Qed.
End SizeFacts.

(** ** The pair list *)

Section PairFacts.
Context `{Collaborators}.

(** The loop appends, to what it has, the entries of the positions
    whose partner is greater, in order. *)
Lemma render_pairs_loop pairmap l acc :
  fold_left
    (fun pairs i =>
       let pm_i := nth i pairmap 0%Z in
       if (pm_i >? Z.of_nat i)%Z
       then pairs ++ [mkPair (Z.of_nat i) pm_i 1%float DEFAULT_COLORS_e]
       else pairs) l acc
  = acc ++ map (entry_of pairmap)
             (filter (fun i => (nth i pairmap 0 >? Z.of_nat i)%Z) l).
Proof.
  revert acc. induction l as [|i l IH]; intros acc; cbn.
  - now rewrite app_nil_r.
  - rewrite IH. destruct (nth i pairmap 0%Z >? Z.of_nat i)%Z; cbn.
    + now rewrite <- app_assoc.
    + reflexivity.
Qed.

Lemma render_pairs_eq pairmap :
  render_pairs pairmap
  = map (entry_of pairmap)
      (filter (fun i => (nth i pairmap 0 >? Z.of_nat i)%Z)
         (List.seq 0 (List.length pairmap))).
Proof. unfold render_pairs. now rewrite render_pairs_loop. Qed.

Lemma in_render_pairs pairmap e :
  In e (render_pairs pairmap) <->
  exists i, (i < List.length pairmap)%nat
            /\ (nth i pairmap (-1) > Z.of_nat i)%Z
            /\ e = mkPair (Z.of_nat i) (nth i pairmap (-1)%Z) 1%float
                     DEFAULT_COLORS_e.
Proof.
  rewrite render_pairs_eq, in_map_iff. split.
  - intros (i & <- & Hi). apply filter_In in Hi as [Hi Hgt].
    apply in_seq in Hi. exists i.
    rewrite (nth_indep pairmap (-1)%Z 0%Z) by lia.
    apply Z.gtb_lt in Hgt. repeat split; lia.
  - intros (i & Hi & Hgt & ->). exists i.
    rewrite (nth_indep pairmap (-1)%Z 0%Z) in * by lia.
    split; [reflexivity|]. apply filter_In. split.
    + apply in_seq. lia.
    + apply Z.gtb_lt. lia.
Qed.

(** For a pairing relation, [render_pairs] has exactly the entries
    [{from: i, to: j, p: 1.0, color: DEFAULT_COLORS["e"]}] of the base
    pairs with [i < j]; no two entries have the same ends; and an unpaired
    residue is at neither end of an entry. *)
Lemma render_pairs_of_pairing_relation pairmap :
  pairing_relation pairmap ->
  (forall e,
      In e (render_pairs pairmap) <->
      exists i j, base_pair pairmap i j /\ (i < j)%Z
                  /\ e = mkPair i j 1%float DEFAULT_COLORS_e)
  /\ NoDup (map (fun e => (pair_from e, pair_to e)) (render_pairs pairmap))
  /\ (forall e k,
        In e (render_pairs pairmap) ->
        (k < List.length pairmap)%nat ->
        nth k pairmap (-1)%Z = (-1)%Z ->
        pair_from e <> Z.of_nat k /\ pair_to e <> Z.of_nat k).
Proof.
  intros Hrel.
  assert (Hin : forall e,
             In e (render_pairs pairmap) <->
             exists i j, base_pair pairmap i j /\ (i < j)%Z
                         /\ e = mkPair i j 1%float DEFAULT_COLORS_e).
  { intros e. rewrite in_render_pairs. split.
    - intros (i & Hi & Hgt & ->).
      exists (Z.of_nat i), (nth i pairmap (-1)%Z).
      destruct (Hrel i) as [Hu|(Hj & Hne & Hback)]; [lia|lia|].
      unfold base_pair. rewrite Nat2Z.id.
      repeat split; try lia; assumption.
    - intros (i & j & (Hi & Hj & Hij & Hji) & Hlt & ->).
      exists (Z.to_nat i). rewrite Hij, Z2Nat.id by lia.
      repeat split; lia. }
  split; [exact Hin|]. split.
  - rewrite render_pairs_eq, map_map. cbn.
    apply Injective_map_NoDup_in.
    + intros i j _ _ Heq. injection Heq as Heq _. lia.
    + apply NoDup_filter, seq_NoDup.
  - intros e k He Hk Hun.
    apply Hin in He as (i & j & (Hi & Hj & Hij & Hji) & Hlt & ->). cbn.
    split; intros ->.
    + rewrite Nat2Z.id in Hij. lia.
    + rewrite Nat2Z.id in Hji. lia.
Qed.
End PairFacts.

(** ** The command line *)

Lemma lower_ascii_idem c : lower_ascii (lower_ascii c) = lower_ascii c.
Proof. destruct c as [[] [] [] [] [] [] [] []]; reflexivity. Qed.

Lemma lower_idem s : lower (lower s) = lower s.
Proof.
  induction s as [|c s IH]; cbn; [reflexivity|].
  now rewrite lower_ascii_idem, IH.
Qed.

Section CliFacts.
Context `{Collaborators}.

(** C5: [__get_render_type] compares the lowered keyword: "res_type",
    "paired" and "strand" give their render type, "none" gives [None],
    and any other keyword raises [ValueError("unknown render type: " +
    keyword)]; [__rna_draw_from_args] then raises before it creates the
    drawer, so no call on the renderer is made. *)
Theorem get_render_type_keywords (name : string) :
  let n := lower name in
  let r := __get_render_type (Some name) in
  r = __get_render_type (Some n)
  /\ ((n = "res_type"%string /\ r = inr (Some RES_TYPE))
      \/ (n = "paired"%string /\ r = inr (Some PAIRED))
      \/ (n = "strand"%string /\ r = inr (Some STRAND))
      \/ (n = "none"%string /\ r = inr None)
      \/ (n <> "res_type"%string /\ n <> "paired"%string
          /\ n <> "strand"%string /\ n <> "none"%string
          /\ r = inl (ValueError ("unknown render type: " ++ n))))
  /\ (forall S (args : Namespace) (s : S),
        match __get_render_type (ns_render_type args) with
        | inl e =>
            (exists e', result (__rna_draw_from_args args) s = inl e')
            /\ Forall (fun ev => is_drawing ev = false)
                 (events (__rna_draw_from_args args) s)
            /\ (result (__rna_draw_from_args args) s = inl e
                \/ exists e',
                     Data_init (ns_data_str args) (ns_data_file args)
                       (ns_data_palette args) (ns_data_vmin args)
                       (ns_data_vmax args) (ns_data_ignore_restype args)
                     = inl e'
                     /\ result (__rna_draw_from_args args) s = inl e')
        | inr _ => True
        end).
Proof.
  cbv zeta. split; [|split].
  - unfold __get_render_type. now rewrite lower_idem.
  - unfold __get_render_type.
    destruct (String.eqb_spec (lower name) "res_type") as [E1|E1]; [auto|].
    destruct (String.eqb_spec (lower name) "paired") as [E2|E2]; [auto|].
    destruct (String.eqb_spec (lower name) "strand") as [E3|E3]; [auto 6|].
    destruct (String.eqb_spec (lower name) "none") as [E4|E4]; [auto 6|].
    auto 10.
  - intros S args s.
    destruct (__get_render_type (ns_render_type args)) as [e|rt] eqn:E;
      [|exact I].
    outcome_of (@__rna_draw_from_args _ S args) s.
    run; try rewrite E in *; try discriminate.
    all: repeat match goal with
                | E : inl _ = inl _ |- _ => injection E as <-
                end.
    all: (split; [eauto|split; [repeat constructor|eauto]]).
Qed.

(** The loop of [rna_draw] builds [cli_args_of_kwargs]. *)
Lemma rna_draw_args_spec kwargs :
  rna_draw_args kwargs = cli_args_of_kwargs kwargs.
Proof.
  unfold rna_draw_args.
  enough (G : forall acc,
             fold_left
               (fun args kv =>
                  let '(k, v) := kv in
                  let args := args ++ [PyStr ("-" ++ k)] in
                  let v := if isinstance_Path v then str v else v in
                  args ++ [v]) kwargs acc
             = acc ++ cli_args_of_kwargs kwargs) by apply (G []).
  induction kwargs as [|[k v] kwargs IH]; intros acc; cbn.
  - now rewrite app_nil_r.
  - rewrite IH, <- !app_assoc. cbn. now destruct v.
Qed.

(** [__rna_draw_from_args] does not read the state it runs in. *)
Lemma rna_draw_from_args_any_state {S S'} args (s : S) (s' : S') :
  observe (__rna_draw_from_args args) s
  = observe (__rna_draw_from_args args) s'.
Proof.
  unfold observe, result, events, __rna_draw_from_args,
    __get_data_from_args, on_local, bind, call, lift, ret.
  destruct (is_not_None (ns_data_str args) || is_not_None (ns_data_file args));
    cbn -[draw]; [destruct (Data_init _ _ _ _ _ _); cbn -[draw]; [reflexivity|]|];
    (destruct (__get_render_type (ns_render_type args)); cbn -[draw];
     [reflexivity|]);
    (destruct (ns_default_color args); cbn -[draw];
     [destruct (parse_color_code _); cbn -[draw]; [reflexivity|]|]);
    match goal with
    | |- context [draw ?a ?b ?c ?d ?e ?f ?g ?h ?i ?rd] =>
        destruct (draw a b c d e f g h i rd) as [[? ?] ?]
    end; reflexivity.
Qed.

(** C10: [rna_draw] with keyword arguments and [main] run with
    [sys.argv[1:]] the list that prefixes each key with "-" and follows
    it with its value (a [Path] as a string) return or raise the same and
    make the same calls, the first of which is [parse_args] of the parser
    of [get_parser] on that list. *)
Theorem rna_draw_is_main_on_cli_args kwargs proc prog :
  let cli := mkProcess (prog :: cli_args_of_kwargs kwargs) in
  observe (rna_draw kwargs) proc = observe main cli
  /\ hd_error (events (rna_draw kwargs) proc)
     = Some (EParseArgs get_parser (cli_args_of_kwargs kwargs))
  /\ hd_error (events main cli)
     = Some (EParseArgs get_parser (cli_args_of_kwargs kwargs)).
Proof.
  cbv zeta.
  assert (E : observe (rna_draw kwargs) proc
              = observe main
                  (mkProcess (prog :: cli_args_of_kwargs kwargs))).
  { unfold rna_draw, main, parse_args, parse_args_of.
    rewrite rna_draw_args_spec.
    pose proof (fun args =>
                  rna_draw_from_args_any_state args proc
                    (mkProcess (prog :: cli_args_of_kwargs kwargs))) as I.
    unfold observe, result, events, bind, call, get, ret in *. cbn.
    destruct (argparse_parse_args get_parser (cli_args_of_kwargs kwargs))
      as [e|args]; cbn; [reflexivity|].
    specialize (I args).
    destruct (__rna_draw_from_args args proc) as [[r1 s1] t1].
    destruct (__rna_draw_from_args args _) as [[r2 s2] t2].
    cbn in *. congruence. }
  split; [exact E|].
  assert (G : hd_error (events (rna_draw kwargs) proc)
              = Some (EParseArgs get_parser (cli_args_of_kwargs kwargs))).
  { unfold rna_draw, parse_args_of. rewrite rna_draw_args_spec.
    unfold events, bind, call, get; cbn.
    destruct (argparse_parse_args get_parser (cli_args_of_kwargs kwargs))
      as [e|args]; cbn; [reflexivity|].
    now destruct (__rna_draw_from_args args proc) as [[r1 s1] t1]. }
  split; [exact G|].
  unfold observe in E. injection E as _ <-. exact G.
Qed.
End CliFacts.

Example get_render_type_mixed_case :
  __get_render_type (Some "Res_Type"%string) = inr (Some RES_TYPE).
Proof. reflexivity. Qed.

Example get_render_type_motif :
  __get_render_type (Some "motif"%string)
  = inl (ValueError "unknown render type: motif").
Proof. reflexivity. Qed.

(** ** More on the pair list *)

(** [range(a, a + n)] is increasing, and stays so when filtered. *)
Lemma seq_sorted a n : StronglySorted lt (List.seq a n).
Proof.
  revert a. induction n as [|n IH]; intros a; cbn; constructor.
  - apply IH.
  - apply Forall_forall. intros x Hx. apply in_seq in Hx. lia.
Qed.

Lemma filter_sorted (p : nat -> bool) l :
  StronglySorted lt l ->
  StronglySorted Z.lt (map Z.of_nat (filter p l)).
Proof.
  induction 1 as [|a l Hs IH Ha]; cbn; [constructor|].
  destruct (p a); cbn; [|exact IH].
  constructor; [exact IH|].
  apply Forall_forall. intros z Hz.
  apply in_map_iff in Hz as (x & <- & Hx). apply filter_In in Hx as [Hx _].
  rewrite Forall_forall in Ha. specialize (Ha x Hx). lia.
Qed.

(** A filtered list splits by a second test. *)
Lemma filter_split_length {A} (p q : A -> bool) l :
  List.length (filter p l)
  = (List.length (filter (fun x => p x && q x) l)
     + List.length (filter (fun x => p x && negb (q x)) l))%nat.
Proof.
  induction l as [|a l IH]; cbn; [reflexivity|].
  destruct (p a), (q a); cbn; lia.
Qed.

Section PairListFacts.
Context `{Collaborators}.

(** X1: whatever the pair map (symmetric or not), the [pairs] list is in
    increasing order of its from-index; every entry starts at a position
    of the pair map, ends at the partner recorded there, which is greater,
    and has weight 1.0 and the default edge color; there are no more
    entries than positions, and none exactly when no position has a
    greater partner. *)
Theorem render_pairs_in_order pairmap :
  StronglySorted Z.lt (map (@pair_from rgb) (render_pairs pairmap))
  /\ Forall
       (fun e =>
          (0 <= pair_from e < Z.of_nat (List.length pairmap))%Z
          /\ (pair_from e < pair_to e)%Z
          /\ pair_to e = nth (Z.to_nat (pair_from e)) pairmap (-1)%Z
          /\ pair_p e = 1%float
          /\ pair_color e = DEFAULT_COLORS_e)
       (render_pairs pairmap)
  /\ (List.length (render_pairs pairmap) <= List.length pairmap)%nat
  /\ (render_pairs pairmap = [] <->
      forall i, (i < List.length pairmap)%nat ->
                (nth i pairmap (-1) <= Z.of_nat i)%Z).
Proof.
  split; [|split; [|split]].
  - rewrite render_pairs_eq, map_map. cbn.
    apply filter_sorted, seq_sorted.
  - apply Forall_forall. intros e He.
    apply in_render_pairs in He as (i & Hi & Hgt & ->). cbn.
    rewrite Nat2Z.id. repeat split; lia.
  - rewrite render_pairs_eq, length_map.
    etransitivity; [apply filter_length_le|]. now rewrite length_seq.
  - split.
    + intros Hnil i Hi.
      destruct (Z_le_gt_dec (nth i pairmap (-1)%Z) (Z.of_nat i)) as [Hle|Hgt];
        [exact Hle|].
      assert (Hin : In (mkPair (Z.of_nat i) (nth i pairmap (-1)%Z) 1%float
                          DEFAULT_COLORS_e) (render_pairs pairmap))
        by (apply in_render_pairs; eauto).
      rewrite Hnil in Hin. destruct Hin.
    + intros Hall.
      destruct (render_pairs pairmap) as [|e l] eqn:E; [reflexivity|].
      assert (He : In e (render_pairs pairmap)) by (rewrite E; now left).
      apply in_render_pairs in He as (i & Hi & Hgt & _).
      specialize (Hall i Hi). lia.
Qed.

(** X2: for a pairing relation, the paired positions are twice as many as
    the entries of the [pairs] list: each base pair accounts for two
    residues and one entry. *)
Theorem render_pairs_half_of_paired pairmap :
  pairing_relation pairmap ->
  List.length (paired_positions pairmap)
  = (2 * List.length (render_pairs pairmap))%nat.
Proof.
  intros Hrel.
  set (n := List.length pairmap).
  set (pm := fun i => nth i pairmap (-1)%Z).
  set (up := filter (fun i => (pm i >? Z.of_nat i)%Z) (List.seq 0 n)).
  set (down :=
         filter
           (fun i => negb (pm i =? -1)%Z && negb (pm i >? Z.of_nat i)%Z)
           (List.seq 0 n)).
  assert (Hup : forall i, In i up <-> (i < n)%nat /\ (pm i > Z.of_nat i)%Z).
  { intros i. unfold up. rewrite filter_In, in_seq.
    rewrite Z.gtb_lt. lia. }
  assert (Hdown : forall i,
             In i down <->
             (i < n)%nat /\ pm i <> (-1)%Z /\ (pm i <= Z.of_nat i)%Z).
  { intros i. unfold down. rewrite filter_In, in_seq, andb_true_iff,
      !negb_true_iff, Z.eqb_neq, Z.gtb_ltb, Z.ltb_ge. lia. }
  assert (Hpart : forall i, (i < n)%nat -> pm i <> (-1)%Z ->
             (0 <= pm i < Z.of_nat n)%Z /\ pm i <> Z.of_nat i
             /\ pm (Z.to_nat (pm i)) = Z.of_nat i).
  { intros i Hi Hne.
    destruct (Hrel i) as [Hu|Hp]; [lia|contradiction|exact Hp]. }
  assert (Hlen : List.length (render_pairs pairmap) = List.length up).
  { rewrite render_pairs_eq, length_map. unfold up, pm, n.
    f_equal. apply filter_ext_in. intros i Hi. apply in_seq in Hi.
    now rewrite (nth_indep pairmap (-1)%Z 0%Z) by lia. }
  assert (Hsplit : List.length (paired_positions pairmap)
                   = (List.length up + List.length down)%nat).
  { unfold paired_positions.
    rewrite (filter_split_length _ (fun i => (pm i >? Z.of_nat i)%Z)).
    f_equal.
    apply (f_equal (@List.length nat)). apply filter_ext_in.
    intros i Hi. apply in_seq in Hi. fold (pm i).
    destruct (pm i >? Z.of_nat i)%Z eqn:E; [|now rewrite andb_false_r].
    rewrite andb_true_r. apply Z.gtb_lt in E.
    apply negb_true_iff, Z.eqb_neq. lia. }
  assert (Hinj : forall l, NoDup l ->
             (forall i, In i l -> (i < n)%nat /\ pm i <> (-1)%Z) ->
             NoDup (map (fun i => Z.to_nat (pm i)) l)).
  { intros l Hnd Hl. apply Injective_map_NoDup_in; [|exact Hnd].
    intros i j Hi Hj Heq.
    destruct (Hl i Hi) as [Hin Hne], (Hl j Hj) as [Hjn Hje].
    destruct (Hpart i Hin Hne) as (_ & _ & Hbi).
    destruct (Hpart j Hjn Hje) as (_ & _ & Hbj).
    rewrite Heq in Hbi. rewrite Hbi in Hbj. lia. }
  assert (Hle1 : (List.length up <= List.length down)%nat).
  { rewrite <- (length_map (fun i => Z.to_nat (pm i)) up).
    apply NoDup_incl_length.
    - apply Hinj; [apply NoDup_filter, seq_NoDup|].
      intros i Hi. apply Hup in Hi. lia.
    - intros j Hj. apply in_map_iff in Hj as (i & <- & Hi).
      apply Hup in Hi as [Hi Hgt].
      destruct (Hpart i Hi) as (Hr & Hne & Hb); [lia|].
      apply Hdown. rewrite Hb. lia. }
  assert (Hle2 : (List.length down <= List.length up)%nat).
  { rewrite <- (length_map (fun i => Z.to_nat (pm i)) down).
    apply NoDup_incl_length.
    - apply Hinj; [apply NoDup_filter, seq_NoDup|].
      intros i Hi. apply Hdown in Hi. lia.
    - intros j Hj. apply in_map_iff in Hj as (i & <- & Hi).
      apply Hdown in Hi as (Hi & Hne & Hle).
      destruct (Hpart i Hi Hne) as (Hr & Hni & Hb).
      apply Hup. rewrite Hb. lia. }
  lia.
Qed.
End PairListFacts.

(** ** Layouts without height *)

(** No float is smaller than itself. *)
Lemma ltb_irrefl (x : float) : PrimFloat.ltb x x = false.
Proof.
  rewrite ltb_spec. unfold SFltb.
  destruct (Prim2SF x) as [s|s| |s m e]; cbn;
    try reflexivity; try (destruct s; reflexivity).
  change (PosDef.Pos.compare_cont Eq m m) with (Pos.compare m m).
  destruct s; rewrite Z.compare_refl, Pos.compare_refl; reflexivity.
Qed.

(** [min] and [max] of equal coordinates. *)
Lemma min_from_constant y l :
  Forall (fun z => z = y) l -> min_from y l = y.
Proof.
  induction 1 as [|z l -> _ IH]; cbn; [reflexivity|].
  now rewrite ltb_irrefl.
Qed.

Lemma max_from_constant y l :
  Forall (fun z => z = y) l -> max_from y l = y.
Proof.
  induction 1 as [|z l -> _ IH]; cbn; [reflexivity|].
  now rewrite ltb_irrefl.
Qed.

(** A float minus itself is +0, or not a number. *)
Lemma self_difference (y : float) :
  Prim2SF (y - y) = S754_zero false \/ Prim2SF (y - y) = S754_nan.
Proof.
  rewrite sub_spec. unfold SF64sub, SFsub.
  destruct (Prim2SF y) as [s|s| |s m e];
    [destruct s; auto | destruct s; auto | auto |].
  rewrite Z.sub_diag. auto.
Qed.

(** ... so its quotient by any float is not positive. *)
Lemma self_difference_quotient_not_positive (y d : float) :
  PrimFloat.ltb 0 ((y - y) / d) = false.
Proof.
  rewrite ltb_spec, div_spec.
  change (Prim2SF 0) with (S754_zero false).
  destruct (self_difference y) as [-> | ->];
    destruct (Prim2SF d) as [s|s| |s m e]; try destruct s; reflexivity.
Qed.

Section FlatLayouts.
Context `{Collaborators}.

(** X3: on every layout whose y-coordinates are all the same float [y],
    the sizing step rescales unless the smallest x-coordinate equals [y],
    and the height it then computes, [(y - y) / ...], is not positive,
    whatever the x-coordinates and the fitted coefficients. *)
Theorem figure_size_flat_layout x xs y ys param0 param1 param2 :
  Forall (fun z => z = y) ys ->
  let min_x := min_from x xs in
  let max_x := max_from x xs in
  let d :=
    (param0 * float_pow ((max_x - min_x) * (y - y) - param1) param2)%float in
  figure_size (x :: xs) (y :: ys) (param0, param1, param2)
  = (if float_ne min_x y
     then inr (Some ((max_x - min_x) / d, (y - y) / d)%float)
     else inr None)
  /\ PrimFloat.ltb 0 ((y - y) / d) = false.
Proof.
  intros Hflat. cbv zeta. split.
  - unfold figure_size, ebind, py_min, py_max.
    rewrite (min_from_constant Hflat), (max_from_constant Hflat).
    reflexivity.
  - apply self_difference_quotient_not_positive.
Qed.

End FlatLayouts.

(** ** More on RNADrawer.draw *)

Section MoreDrawFacts.
Context `{Collaborators}.

(** X4: [draw] calls [color_palette] only when a palette is given, once,
    before any other call; without one the colorer keeps the palette it
    has.  When [color_palette] raises, that is the outcome of [draw] and
    no other call is made. *)
Theorem draw_palette_calls ss seq filename color_str render_type
    default_color color_palette data draw_params self :
  let run :=
    draw ss seq filename color_str render_type default_color color_palette
      data draw_params in
  match color_palette with
  | None => filter is_color_palette (events run self) = []
  | Some cp =>
      filter is_color_palette (events run self) = [EColorPalette cp]
      /\ hd_error (events run self) = Some (EColorPalette cp)
      /\ match Colorer_color_palette cp (__colorer self) with
         | inl e => result run self = inl e
                    /\ events run self = [EColorPalette cp]
         | inr _ => True
         end
  end.
Proof.
  outcome_of
    (draw ss seq filename color_str render_type default_color
       color_palette data draw_params) self.
  run; use_outcomes;
    repeat match goal with
           | E : ?x = _ |- context [?x] => rewrite E
           end;
    cbn; auto.
Qed.

(** X6: [draw] calls the renderer's [draw] at most once, and then with the
    cell padding (twice) and the letter flag of the parameters in effect,
    the colors that color resolution returned, the [pairs] list of the
    parsed structure and the sequence; a call of [draw] that does not
    reach the renderer's [draw] raises. *)
Theorem draw_hands_colors_and_pairs ss seq filename color_str render_type
    default_color color_palette data draw_params self :
  let run :=
    draw ss seq filename color_str render_type default_color color_palette
      data draw_params in
  let seq' :=
    match seq with
    | None => spaces (String.length ss)
    | Some s => s
    end in
  let params :=
    match draw_params with
    | Some dp => dp
    | None => __draw_params self
    end in
  ((exists e, result run self = inl e)
   /\ filter is_renderer_draw (events run self) = [])
  \/ (exists c0 colors c1 pairmap,
        colorer_after_palette color_palette (__colorer self) = inr c0
        /\ Colorer_get_rgb_colors seq' ss color_str data render_type
             default_color c0 = inr (colors, c1)
        /\ get_pairmap_from_secstruct ss = inr pairmap
        /\ filter is_renderer_draw (events run self)
           = [EDraw (CELL_PADDING params) (CELL_PADDING params) colors
                (render_pairs pairmap) seq' (RENDER_IN_LETTERS params)]).
Proof.
  unfold colorer_after_palette.
  outcome_of
    (draw ss seq filename color_str render_type default_color
       color_palette data draw_params) self.
  run; use_outcomes;
    repeat match goal with
           | E : ?x = _ |- context [?x] => rewrite E
           end;
    first [ left; split; [eexists|]; reflexivity
          | right; do 4 eexists; repeat split;
            first [reflexivity | eassumption] ].
Qed.

(** X7: [__render] raises [ValueError] on an empty renderer: when
    [get_size] returns an empty sequence, from [max(size)] (whose result
    is not used afterwards), and when the layout has no x-coordinate, from
    [min(r.xarray_)] in the x-limits; nothing is fitted, drawn or saved. *)
Theorem render_raises_on_empty_layout S seq ss colors filename params (s : S)
    pairmap r1 size :
  get_pairmap_from_secstruct ss = inr pairmap ->
  setup_tree ss (NODE_R params) (PRIMARY_SPACE params) (PAIR_SPACE params)
    RNARenderer_init = inr r1 ->
  get_size r1 = inr size ->
  let run := @__render _ S seq ss colors filename params in
  let laid_out :=
    [EGetPairmap ss;
     ESetupTree ss (NODE_R params) (PRIMARY_SPACE params) (PAIR_SPACE params);
     EGetSize] in
  match size with
  | [] =>
      result run s = inl (ValueError "max() arg is an empty sequence")
      /\ events run s = laid_out
  | _ :: _ =>
      forall r2,
        ax_axis "off" r1 = inr r2 ->
        xarray_ r2 = [] ->
        result run s = inl (ValueError "min() arg is an empty sequence")
        /\ events run s = laid_out ++ [EAxis "off"]
  end.
Proof.
  intros Hpm Hlay Hsize. cbv zeta.
  destruct size as [|x size]; [|intros r2 Hax Hxs];
    outcome_of (@__render _ S seq ss colors filename params) s;
    run; agree; try (rewrite Hxs in *); cbn [py_min py_max] in *; agree;
    try discriminate; split; reflexivity.
Qed.
End MoreDrawFacts.

(** ** The arguments of a request *)

Section CliArgumentFacts.
Context `{Collaborators}.

(** X8: [__rna_draw_from_args] creates its own drawer and passes no
    [draw_params]: every layout and drawing call it makes is given the
    values of [DrawParameters()]. *)
Theorem cli_uses_default_parameters S (args : Namespace) (s : S) :
  Forall (given_params DrawParameters_init)
    (events (__rna_draw_from_args args) s).
Proof.
  outcome_of (@__rna_draw_from_args _ S args) s.
  run; repeat (constructor; try (cbn; auto; fail)).
Qed.

(** X9: when [Data(...)] raises, that is the outcome of
    [__rna_draw_from_args] and its only call (the render type is not
    looked at); when [parse_color_code] rejects the default color, the
    request raises having made no call on a colorer or a renderer. *)
Theorem cli_rejects_before_drawing S (args : Namespace) (s : S) :
  let run := @__rna_draw_from_args _ S args in
  (if is_not_None (ns_data_str args) || is_not_None (ns_data_file args) then
     match Data_init (ns_data_str args) (ns_data_file args)
             (ns_data_palette args) (ns_data_vmin args) (ns_data_vmax args)
             (ns_data_ignore_restype args) with
     | inl e =>
         result run s = inl e
         /\ events run s
            = [EDataInit (ns_data_str args) (ns_data_file args)
                 (ns_data_palette args) (ns_data_vmin args)
                 (ns_data_vmax args) (ns_data_ignore_restype args)]
     | inr _ => True
     end
   else True)
  /\ match ns_default_color args with
     | Some code =>
         match parse_color_code code with
         | inl e =>
             (exists e', result run s = inl e')
             /\ Forall (fun ev => is_argument_check ev = true) (events run s)
         | inr _ => True
         end
     | None => True
     end.
Proof.
  cbv zeta. split.
  - destruct (is_not_None (ns_data_str args)
              || is_not_None (ns_data_file args)) eqn:Hd; [|exact I].
    destruct (Data_init _ _ _ _ _ _) as [e|d] eqn:E; [|exact I].
    unfold result, events, __rna_draw_from_args, __get_data_from_args,
      bind, call.
    now rewrite Hd, E.
  - destruct (ns_default_color args) as [code|] eqn:Hc; [|exact I].
    destruct (parse_color_code code) as [e|c] eqn:E; [|exact I].
    outcome_of (@__rna_draw_from_args _ S args) s.
    run_arguments; agree; try congruence;
      (split; [eauto|repeat constructor]).
Qed.
End CliArgumentFacts.

Section EntryPointFacts.
Context `{Collaborators}.

(** X10: without [-data_str] and [-data_file] the options [-data_palette],
    [-data_vmin], [-data_vmax] and [-data_ignore_restype] have no effect:
    no [Data] is constructed and color resolution is called with
    [data=None]. *)
Theorem cli_data_options_need_data S (args : Namespace) (s : S) :
  ns_data_str args = None ->
  ns_data_file args = None ->
  __rna_draw_from_args args s
  = __rna_draw_from_args (without_data_options args) s
  /\ Forall (fun ev => match ev with
                       | EGetRgbColors _ _ _ data _ _ => data = None
                       | EDataInit _ _ _ _ _ _ => False
                       | _ => True
                       end)
       (events (__rna_draw_from_args args) s).
Proof.
  intros Hs Hf. split.
  - unfold __rna_draw_from_args, __get_data_from_args, without_data_options.
    cbn [ns_data_str ns_data_file ns_render_type ns_default_color ns_ss
         ns_seq ns_out ns_color_str ns_color_palette].
    now rewrite Hs, Hf.
  - outcome_of (@__rna_draw_from_args _ S args) s.
    run; try (rewrite Hs, Hf in *; discriminate);
      repeat (constructor; try (cbn; auto; fail)).
Qed.

(** X11: the render type "none", in any letter case, is the same request
    as no render type. *)
Theorem cli_render_type_none S (args : Namespace) (name : string) (s : S) :
  lower name = "none"%string ->
  __rna_draw_from_args (with_render_type args (Some name)) s
  = __rna_draw_from_args (with_render_type args None) s.
Proof.
  intros Hn.
  unfold __rna_draw_from_args, __get_data_from_args, with_render_type.
  cbn [ns_data_str ns_data_file ns_render_type ns_default_color ns_ss
       ns_seq ns_out ns_color_str ns_color_palette ns_data_palette
       ns_data_vmin ns_data_vmax ns_data_ignore_restype].
  unfold __get_render_type. rewrite Hn. reflexivity.
Qed.

(** X12: the help text of [-render_type] lists "motif", and
    [__get_render_type] rejects it, in any letter case, with
    [ValueError("unknown render type: motif")]. *)
Theorem render_type_motif_rejected (name : string) :
  lower name = "motif"%string ->
  In (mkArgument "-render_type"
        "scheme to color by: res_type,paired,motif,none" (Some false) None)
     get_parser
  /\ __get_render_type (Some name)
     = inl (ValueError "unknown render type: motif").
Proof.
  intros Hn. split.
  - cbn. auto 10.
  - unfold __get_render_type. rewrite Hn. reflexivity.
Qed.

(** X13: the argument list of [rna_draw] has two items for each keyword
    argument, in the order of the keyword arguments: "-" + key, then the
    value, a [Path] as its string and any other value unchanged; no
    [Path] is left in the list. *)
Theorem rna_draw_args_shape (kwargs : list (string * pyobj)) :
  List.length (rna_draw_args kwargs) = (2 * List.length kwargs)%nat
  /\ Forall (fun v => isinstance_Path v = false) (rna_draw_args kwargs)
  /\ (forall i k v,
        nth_error kwargs i = Some (k, v) ->
        nth_error (rna_draw_args kwargs) (2 * i) = Some (PyStr ("-" ++ k))
        /\ nth_error (rna_draw_args kwargs) (2 * i + 1)
           = Some (match v with
                   | PyPath p => PyStr p
                   | _ => v
                   end)).
Proof.
  rewrite rna_draw_args_spec. unfold cli_args_of_kwargs.
  induction kwargs as [|[k v] kwargs (IHlen & IHpath & IHnth)];
    cbn [flat_map app List.length fst snd].
  - repeat split; try constructor; destruct i; discriminate.
  - split; [lia|]. split.
    + constructor; [reflexivity|]. constructor; [now destruct v|exact IHpath].
    + intros [|i] k' v' Hi; cbn [nth_error] in Hi.
      * injection Hi as <- <-. split; [reflexivity|now destruct v].
      * replace (2 * S i)%nat with (S (S (2 * i))) by lia.
        replace (S (S (2 * i)) + 1)%nat with (S (S (2 * i + 1))) by lia.
        cbn [nth_error]. now apply IHnth.
Qed.

End EntryPointFacts.

(** ** The pairs handed to the renderer *)

Section RendererPairs.
Context `{Collaborators}.

(** When the structure parses to [pairmap], [__render] that returns has
    called the renderer's [draw], and every call of the renderer's [draw]
    is given [render_pairs pairmap]. *)
Lemma render_events_pairs S seq ss colors filename params (s : S) pairmap :
  get_pairmap_from_secstruct ss = inr pairmap ->
  let run := @__render _ S seq ss colors filename params in
  (forall f, result run s = inr f ->
     In (EDraw (CELL_PADDING params) (CELL_PADDING params) colors
           (render_pairs pairmap) seq (RENDER_IN_LETTERS params))
        (events run s))
  /\ (forall px py cs pairs sq letters,
        In (EDraw px py cs pairs sq letters) (events run s) ->
        pairs = render_pairs pairmap).
Proof.
  intros Hpm. cbv zeta.
  outcome_of (@__render _ S seq ss colors filename params) s.
  run; agree;
    (split;
     [ intros ? Hf; first [discriminate Hf | cbn; auto 20]
     | intros ? ? ? ? ? ? Hin; cbn in Hin;
       repeat (destruct Hin as [Hin|Hin]; try discriminate Hin);
       try contradiction;
       now injection Hin as _ _ _ <- _ _ ]).
Qed.

(** C6: when the dot-bracket string parses to a pairing relation, the
    [pairs] list that [__render] hands to the renderer's [draw] has exactly
    the entries [{from: i, to: j, p: 1.0, color: DEFAULT_COLORS["e"]}] of
    the base pairs with [i < j]: no two entries have the same ends, and an
    unpaired residue is at neither end of an entry.  A [__render] that
    returns has handed this list to the renderer. *)
Theorem render_hands_one_entry_per_pair S seq ss colors filename params
    (s : S) pairmap :
  get_pairmap_from_secstruct ss = inr pairmap ->
  pairing_relation pairmap ->
  let run := @__render _ S seq ss colors filename params in
  (forall f, result run s = inr f ->
     exists pairs,
       In (EDraw (CELL_PADDING params) (CELL_PADDING params) colors pairs
             seq (RENDER_IN_LETTERS params))
          (events run s))
  /\ (forall px py cs pairs sq letters,
        In (EDraw px py cs pairs sq letters) (events run s) ->
        (forall e,
            In e pairs <->
            exists i j, base_pair pairmap i j /\ (i < j)%Z
                        /\ e = mkPair i j 1%float DEFAULT_COLORS_e)
        /\ NoDup (map (fun e => (pair_from e, pair_to e)) pairs)
        /\ (forall e k,
              In e pairs ->
              (k < List.length pairmap)%nat ->
              nth k pairmap (-1)%Z = (-1)%Z ->
              pair_from e <> Z.of_nat k /\ pair_to e <> Z.of_nat k)).
Proof.
  intros Hpm Hrel. cbv zeta.
  destruct
    (@render_events_pairs S seq ss colors filename params s pairmap Hpm)
    as [Hcalled Hgiven].
  split.
  - intros f Hf. eexists. exact (Hcalled f Hf).
  - intros px py cs pairs sq letters Hin.
    rewrite (Hgiven _ _ _ _ _ _ Hin).
    exact (render_pairs_of_pairing_relation Hrel).
Qed.

End RendererPairs.

(** ** Runs with the stand-in collaborators *)

(** C2: with the stand-in collaborators, a call with [draw_params=None]
    on a fresh instance lays the structure out with the default
    parameters, and the same call after a call that supplied other
    parameters lays it out with those. *)
Lemma draw_None_depends_on_earlier_call :
  ~ (forall (C : Collaborators) ss seq filename color_str render_type
       default_color color_palette data (dp : DrawParameters),
       let call_None :=
         draw ss seq filename color_str render_type default_color
           color_palette data None in
       let fresh := RNADrawer___init__ in
       let used :=
         final (draw ss seq filename color_str render_type default_color
                  color_palette data (Some dp)) fresh in
       observe call_None used = observe call_None fresh).
Proof.
  intros all_calls.
  specialize
    (all_calls StandIn.collaborators "((..))"%string None "secstruct"%string
       None None None None None (mkDrawParameters 5 20 23 40 false)).
  vm_compute in all_calls.
  discriminate all_calls.
Qed.

(** The call [draw("((..))", seq="AC")] with the stand-in collaborators. *)
Lemma draw_forwards_seq_witness :
  In (ESetupTree "((..))" 10 20 23)
     (events (draw (H := StandIn.collaborators) "((..))" (Some "AC"%string)
                "secstruct" None None None None None None)
        RNADrawer___init__).
Proof.
  exact (proj2 (proj2
    (draw_forwards_seq (H := StandIn.collaborators) "((..))" "AC" "secstruct"
       None None None None None None RNADrawer___init__
       eq_refl eq_refl eq_refl))).
Defined.

(** C3: with the stand-in collaborators, [draw("((..))", seq="AC")]
    returns a figure, after laying the structure out. *)
Lemma draw_accepts_seq_of_other_length :
  ~ (forall (C : Collaborators) ss seq filename color_str render_type
       default_color color_palette data draw_params self,
       String.length seq <> String.length ss ->
       let run :=
         draw ss (Some seq) filename color_str render_type default_color
           color_palette data draw_params in
       (exists e, result run self = inl e)
       /\ (forall node_r primary_space pair_space,
             ~ In (ESetupTree ss node_r primary_space pair_space)
                 (events run self))).
Proof.
  intros all_calls.
  destruct
    (all_calls StandIn.collaborators "((..))"%string "AC"%string
       "secstruct"%string None None None None None None RNADrawer___init__)
    as [[e He] _].
  - cbn. lia.
  - vm_compute in He. discriminate He.
Qed.

(** C7: with the stand-in collaborators, two calls of [draw] on one
    instance fit the coefficients twice. *)
Lemma curve_fit_runs_again_on_second_draw :
  ~ (forall (C : Collaborators) ss seq filename color_str render_type
       default_color color_palette data draw_params self,
       let run :=
         draw ss seq filename color_str render_type default_color
           color_palette data draw_params in
       (List.length
          (filter is_curve_fit
             (events run self ++ events run (final run self))) <= 1)%nat).
Proof.
  intros all_calls.
  specialize
    (all_calls StandIn.collaborators "((..))"%string None "secstruct"%string
       None None None None None None RNADrawer___init__).
  vm_compute in all_calls.
  lia.
Qed.

(** The call [draw("(.")] with the stand-in collaborators: the parser
    rejects the structure. *)
Lemma draw_failure_writes_no_image_witness :
  result (draw (H := StandIn.collaborators) "(." None "secstruct" None None
            None None None None) RNADrawer___init__
  = inl (Raised "UnbalancedStructureError" "unmatched open")
  /\ Forall (fun ev => is_savefig ev = false)
       (events (draw (H := StandIn.collaborators) "(." None "secstruct" None
                  None None None None None) RNADrawer___init__).
Proof.
  exact (proj1 (proj2
    (draw_failure_writes_no_image (H := StandIn.collaborators) "(." None
       "secstruct" None None None None None None RNADrawer___init__))
    None _ _ eq_refl eq_refl eq_refl).
Defined.

Example parse_hairpin :
  StandIn.parse "((..))" = inr [5; 4; -1; -1; 1; 0]%Z.
Proof. reflexivity. Qed.

Lemma hairpin_pairing_relation : pairing_relation [5; 4; -1; -1; 1; 0]%Z.
Proof.
  intros i Hi.
  do 6 (destruct i as [|i];
        [first [ left; reflexivity
               | right; split; [cbn; lia|split; [cbn; lia|reflexivity]] ]|]).
  cbn in Hi. lia.
Qed.

(** The pair map of "((..))": four paired positions, two entries. *)
Lemma render_pairs_half_of_paired_witness :
  List.length (paired_positions [5; 4; -1; -1; 1; 0]%Z)
  = (2 * List.length
           (render_pairs (H := StandIn.collaborators)
              [5; 4; -1; -1; 1; 0]%Z))%nat.
Proof.
  exact (@render_pairs_half_of_paired StandIn.collaborators _
           hairpin_pairing_relation).
Defined.

(** The layout with x-coordinates 5 and 100 on the line y = 0. *)
Lemma figure_size_flat_layout_witness :
  PrimFloat.ltb 0
    ((0 - 0)
     / (1 * @float_pow StandIn.collaborators
              ((max_from 5 [100]%float - min_from 5 [100]%float) * (0 - 0)
               - 0) 1))
  = false.
Proof.
  exact (proj2
    (@figure_size_flat_layout StandIn.collaborators 5 [100]%float
       0%float [0]%float 1 0 1
       (Forall_cons _ eq_refl (Forall_nil _)))).
Defined.

(** [__render] on the empty structure with the stand-in collaborators,
    whose layout then has no point. *)
Lemma render_raises_on_empty_layout_witness :
  result (__render (H := StandIn.collaborators) (S := unit) "" "" []
            "secstruct" (@DrawParameters_init StandIn.collaborators)) tt
  = inl (ValueError "min() arg is an empty sequence")
  /\ events (__render (H := StandIn.collaborators) (S := unit) "" "" []
               "secstruct" (@DrawParameters_init StandIn.collaborators)) tt
     = [EGetPairmap ""; ESetupTree "" 10 20 23; EGetSize; EAxis "off"].
Proof.
  exact (@render_raises_on_empty_layout StandIn.collaborators unit
           "" "" [] "secstruct" (@DrawParameters_init StandIn.collaborators)
           tt _ _ _ eq_refl eq_refl eq_refl ([], []) eq_refl eq_refl).
Defined.

(** The request of the stand-in, with and without its data options. *)
Lemma cli_data_options_need_data_witness :
  __rna_draw_from_args (H := StandIn.collaborators) StandIn.request tt
  = __rna_draw_from_args (H := StandIn.collaborators)
      (without_data_options StandIn.request) tt.
Proof.
  exact (proj1
    (@cli_data_options_need_data StandIn.collaborators unit
       StandIn.request tt eq_refl eq_refl)).
Defined.

(** The request of the stand-in with [-render_type None]. *)
Lemma cli_render_type_none_witness :
  __rna_draw_from_args (H := StandIn.collaborators)
    (with_render_type StandIn.request (Some "None"%string)) tt
  = __rna_draw_from_args (H := StandIn.collaborators)
      (with_render_type StandIn.request None) tt.
Proof.
  exact (@cli_render_type_none StandIn.collaborators unit
           StandIn.request "None" tt eq_refl).
Defined.

(** The keyword "MOTIF". *)
Lemma render_type_motif_rejected_witness :
  __get_render_type (Some "MOTIF"%string)
  = inl (ValueError "unknown render type: motif").
Proof.
  exact (proj2 (@render_type_motif_rejected "MOTIF" eq_refl)).
Defined.

(** [__render] of the structure "((..))" with the stand-in collaborators. *)
Lemma render_hands_one_entry_per_pair_witness :
  exists pairs,
    In (EDraw 40 40 [] pairs "" true)
       (events (__render (H := StandIn.collaborators) (S := unit) ""
                  "((..))" [] "secstruct"
                  (@DrawParameters_init StandIn.collaborators)) tt)
    /\ NoDup (map (fun e => (pair_from e, pair_to e)) pairs).
Proof.
  destruct
    (@render_hands_one_entry_per_pair StandIn.collaborators unit ""
       "((..))" [] "secstruct" (@DrawParameters_init StandIn.collaborators)
       tt _ eq_refl hairpin_pairing_relation)
    as [Hcalled Hgiven].
  destruct (Hcalled _ eq_refl) as [pairs Hin].
  exists pairs. split; [exact Hin|].
  exact (proj1 (proj2 (Hgiven _ _ _ _ _ _ Hin))).
Defined.
